(** * MathesarColumn (db/columns/base.py)

    A shallow embedding of the [MathesarColumn] class: the copy constructor
    [from_column], the attachment resolver [table_], the default-column
    classifier [is_default], the cast resolver [valid_target_types], the two
    live-introspection properties [column_index] and [default_value], and the
    type helpers [plain_type] and [type_options].

    Python values are modelled as follows.
    - [None]-able attributes are [option]s; an attribute that an object may
      not carry at all (probed with [hasattr]) is an [attr].
    - A property that can raise returns a [result]; a property that cannot is
      a plain function.
    - Dictionaries are [gmap]s; the set of foreign keys is the list of its
      elements, in the order in which the set is iterated.
    - Everything base.py imports (SQLAlchemy's type machinery, the default
      column registry, the catalog helpers) is a field of the class
      [Imports]; whatever of it runs code can raise. *)

From stdpp Require Import gmap strings list sorting.
From Stdlib Require Import ZArith.

Open Scope string_scope.
Open Scope Z_scope.

(** ** Exceptions and fallible computations *)

(** [AttributeError obj a]: attribute [a] was read on an object of class
    [obj] that lacks it. [Propagated e]: an exception [e] raised inside an
    imported helper, which base.py never catches. *)
Inductive exn : Type :=
  | AttributeError (obj a : string)
  | Propagated (e : string).

Inductive result (A : Type) : Type :=
  | Ok (v : A)
  | Raise (e : exn).
Arguments Ok {A} v.
Arguments Raise {A} e.

#[global] Instance result_ret : MRet result := λ A v, Ok v.
#[global] Instance result_bind : MBind result := λ A B k m,
  match m with
  | Ok v => k v
  | Raise e => Raise e
  end.

Definition returns {A} (m : result A) : Prop := ∃ v, m = Ok v.

(** ** Objects base.py handles *)

(** An attribute that may be missing from the instance: [Unset] makes
    [hasattr] false, [Held v] holds [v] ([None] or a value). *)
Inductive attr (A : Type) : Type :=
  | Unset
  | Held (v : option A).
Arguments Unset {A}.
Arguments Held {A} v.

(** A table object, of which base.py reads [name] and [schema]. *)
Module Table.
Record t : Type := Build { name : string; schema : option string }.
#[global] Instance eq_dec : EqDecision t.
Proof. solve_decision. Defined.

(** [t.fullname]: the name, behind the schema when there is one. *)
Definition fullname (t : t) : string :=
  match schema t with
  | Some s => String.append s (String.append "." (name t))
  | None => name t
  end.
End Table.

(** A live connection handle, of which base.py reads [dialect]. *)
Module Engine.
Record t : Type := Build { url : string; dialect : string }.
End Engine.

(** A type descriptor: its class, and the instance attributes that hold its
    parameters (an attribute may be missing, or be there and hold [None]). *)
Module SAType.
Record t : Type := Build { class_ : string; params : gmap string (option Z) }.

(** [getattr(ty, k, None)] *)
Definition getattr (ty : t) (k : string) : option Z := params ty !! k ≫= id.

(** [ty.k = v] *)
Definition setattr (k : string) (v : option Z) (ty : t) : t :=
  {| class_ := class_ ty; params := <[k := v]> (params ty) |}.
End SAType.

(** A foreign key. [ForeignKey s] is the constructor call on the qualified
    name [s] of the target column, and the key holds that name.
    [ForeignKey_on t k] is the constructor call on a column object, the
    column [k] of the table object [t], and the key holds that object. *)
Inductive foreign_key : Type :=
  | ForeignKey (colspec : string)
  | ForeignKey_on (target_table : Table.t) (target_key : string).

(** [fk.target_fullname]: the name the key was given, or the table's full
    name and the key of the column it holds. *)
Definition target_fullname (fk : foreign_key) : string :=
  match fk with
  | ForeignKey colspec => colspec
  | ForeignKey_on t k => String.append (Table.fullname t) (String.append "." k)
  end.

(** The key holds a name and no object. *)
Definition holds_name_only (fk : foreign_key) : Prop :=
  ∃ colspec, fk = ForeignKey colspec.

(** ** The column *)

(** The attributes of a [MathesarColumn]. [Ty] is what the [type] attribute
    holds: the descriptor itself where a property reads it, or the address of
    the descriptor object in a [Store] where sharing matters.

    [table] is the attribute every SQLAlchemy column carries: it is [None]
    until a table adopts the column. [original_table] is only ever assigned
    by [from_column]. *)
Record Column (Ty : Type) : Type := {
  name : string;
  type : Ty;
  foreign_keys : list foreign_key;
  primary_key : bool;
  nullable : bool;
  server_default : option string;
  engine : option Engine.t;
  table : option Table.t;
  original_table : attr Table.t;
}.
Arguments name {Ty} _.
Arguments type {Ty} _.
Arguments foreign_keys {Ty} _.
Arguments primary_key {Ty} _.
Arguments nullable {Ty} _.
Arguments server_default {Ty} _.
Arguments engine {Ty} _.
Arguments table {Ty} _.
Arguments original_table {Ty} _.

Section Entity.
Context {Ty : Type}.

(** [MathesarColumn.__init__]: [engine] is set to [None], the other
    arguments go to the base class, which leaves [table] at [None]. *)
Definition __init__ (name : string) (sa_type : Ty)
    (foreign_keys : list foreign_key) (primary_key nullable : bool)
    (server_default : option string) : Column Ty :=
  {| name := name; type := sa_type; foreign_keys := foreign_keys;
     primary_key := primary_key; nullable := nullable;
     server_default := server_default;
     engine := None; table := None; original_table := Unset |}.

(** [obj.original_table = v] *)
Definition set_original_table (v : option Table.t) (self : Column Ty)
    : Column Ty :=
  {| name := name self; type := type self;
     foreign_keys := foreign_keys self; primary_key := primary_key self;
     nullable := nullable self; server_default := server_default self;
     engine := engine self; table := table self;
     original_table := Held v |}.

(** [from_column] *)
Definition from_column (column : Column Ty) : Column Ty :=
  let fkeys :=
    (λ fk, ForeignKey (target_fullname fk)) <$> foreign_keys column in
  let new_column :=
    __init__ (name column) (type column) fkeys (primary_key column)
      (nullable column) (server_default column) in
  set_original_table (table column) new_column.

(** [table_] *)
Definition table_ (self : Column Ty) : option Table.t :=
  match table self with
  | Some t => Some t
  | None =>
      match original_table self with
      | Held (Some t) => Some t
      | _ => None
      end
  end.

(** [add_engine] *)
Definition add_engine (engine : Engine.t) (self : Column Ty) : Column Ty :=
  {| name := name self; type := type self;
     foreign_keys := foreign_keys self; primary_key := primary_key self;
     nullable := nullable self; server_default := server_default self;
     engine := Some engine; table := table self;
     original_table := original_table self |}.
End Entity.


(** ** Imported names *)

(** An entry of [DEFAULT_COLUMNS]: the key [TYPE] holds a type class, the keys
    [PRIMARY_KEY] and [NULLABLE] are optional. *)
Module Template.
Record t : Type := Build {
  TYPE : string;
  PRIMARY_KEY : option bool;
  NULLABLE : option bool;
}.
End Template.

(** [set(xs)], listed: the distinct elements of [xs]. *)
Definition set_ (xs : list string) : list string := remove_dups xs.

(** [sorted(xs)] on strings. *)
Definition sorted (xs : list string) : list string := merge_sort String.le xs.

(** What base.py imports. [DEFAULT_COLUMNS] is the registry of
    db.columns.defaults. [python_type], [instantiate] and [compile] are
    SQLAlchemy's type machinery: [ty.python_type], the call [cls()] of a type
    class without arguments, and [ty.compile(dialect)]; each of them can
    raise (a type without a Python type, a class whose constructor needs
    arguments, a type the dialect cannot render). The other five query the
    database; each receives [self.engine] as it is, so their engine argument
    is an [option]. *)
Class Imports : Type := {
  DEFAULT_COLUMNS : gmap string Template.t;
  python_type : SAType.t → result string;
  instantiate : string → result SAType.t;
  compile : SAType.t → string → result string;
  get_full_cast_map : option Engine.t → result (gmap string (list string));
  has_table : option Engine.t → string → option string → result bool;
  get_oid_from_table : string → option string → option Engine.t → result Z;
  get_column_index_from_name :
    Z → string → option Engine.t → result (option Z);
  get_column_default :
    Z → option Z → option Engine.t → result (option string);
}.

(** ** The properties *)

Section Properties.
Context {imports : Imports}.

Abbreviation column := (Column SAType.t).

(** [is_default]. Without a template the answer is [False] and nothing
    else is evaluated. With one, the two Python types are read, the column's
    first, and compared before the flags. *)
Definition is_default (self : column) : result bool :=
  match DEFAULT_COLUMNS !! name self with
  | None => Ok false
  | Some default_def =>
      own ← python_type (type self);
      template_type ← instantiate (Template.TYPE default_def);
      theirs ← python_type template_type;
      Ok (bool_decide (own = theirs)
          && bool_decide (primary_key self
                          = default false (Template.PRIMARY_KEY default_def))
          && bool_decide (nullable self
                          = default true (Template.NULLABLE default_def)))
  end.

(** [plain_type]. The type class is called first, then [dialect] is read on
    [self.engine], then the new type is compiled. *)
Definition plain_type (self : column) : result string :=
  bare ← instantiate (SAType.class_ (type self));
  match engine self with
  | None => Raise (AttributeError "NoneType" "dialect")
  | Some e => compile bare (Engine.dialect e)
  end.

(** [valid_target_types]. [is_default] is only read when there is an
    engine. *)
Definition valid_target_types (self : column) : result (option (list string)) :=
  match engine self with
  | None => Ok None
  | Some _ =>
      is_default_ ← is_default self;
      if (is_default_ : bool) then Ok None
      else
        db_type ← plain_type self;
        cast_map ← get_full_cast_map (engine self);
        let valid_target_types :=
          sorted (set_ (default [] (cast_map !! db_type))) in
        Ok (match valid_target_types with
            | [] => None
            | _ => Some valid_target_types
            end)
  end.

(** [column_index] *)
Definition column_index (self : column) : result (option Z) :=
  match engine self, table_ self with
  | Some _, Some t =>
      found ← has_table (engine self) (Table.name t) (Table.schema t);
      if (found : bool) then
        table_oid ← get_oid_from_table (Table.name t) (Table.schema t)
                      (engine self);
        get_column_index_from_name table_oid (name self) (engine self)
      else Ok None
  | _, _ => Ok None
  end.

(** [default_value] *)
Definition default_value (self : column) : result (option string) :=
  match table_ self with
  | Some t =>
      table_oid ← get_oid_from_table (Table.name t) (Table.schema t)
                    (engine self);
      index ← column_index self;
      get_column_default table_oid index (engine self)
  | None => Ok None
  end.

(** [type_options] *)
Definition type_options (self : column) : option (gmap string Z) :=
  let full_type_options : gmap string (option Z) :=
    {[ "precision" := SAType.getattr (type self) "precision";
       "scale" := SAType.getattr (type self) "scale" ]} in
  let _type_options : gmap string Z := omap id full_type_options in
  if decide (_type_options = ∅) then None else Some _type_options.

End Properties.

(** ** Objects in memory

    A column created by [from_column] receives the very objects the source
    holds for [type] and [server_default]; only the foreign keys are built
    anew. To follow in-place changes, columns and type descriptors are
    objects at addresses of a [Store], and a column holds the address of its
    type descriptor. The store also records which tables the database has at
    the moment. *)

Definition addr := positive.

Record Store : Type := {
  columns : gmap addr (Column addr);
  types : gmap addr SAType.t;
  tables : gset (string * option string);
}.

(** The same column with another value for [type]. *)
Definition with_type {A B} (ty : B) (c : Column A) : Column B :=
  {| name := name c; type := ty; foreign_keys := foreign_keys c;
     primary_key := primary_key c; nullable := nullable c;
     server_default := server_default c; engine := engine c;
     table := table c; original_table := original_table c |}.

(** What a reader of the object at [a] sees, the type descriptor included. *)
Definition view (σ : Store) (a : addr) : option (Column SAType.t) :=
  c ← columns σ !! a;
  ty ← types σ !! type c;
  Some (with_type ty c).

(** A new column object. *)
Definition new_object (σ : Store) (c : Column addr) : addr * Store :=
  let a := fresh (dom (columns σ)) in
  (a, {| columns := <[a := c]> (columns σ); types := types σ;
         tables := tables σ |}).

(** [MathesarColumn.from_column(column)] with [column] the object at [a0]. *)
Definition from_column_at (σ : Store) (a0 : addr) : option (addr * Store) :=
  c0 ← columns σ !! a0;
  Some (new_object σ (from_column c0)).

(** Changes made through a column [c]: assignments to its own attributes
    ([c.x = v], [c.add_engine(e)]), and an assignment to a parameter of its
    type descriptor ([c.type.k = v]). *)
Inductive mutation : Type :=
  | Assign (f : Column addr → Column addr)
  | SetTypeParam (k : string) (v : option Z).

Definition mutate (σ : Store) (a : addr) (m : mutation) : Store :=
  match m with
  | Assign f =>
      {| columns := alter f a (columns σ); types := types σ;
         tables := tables σ |}
  | SetTypeParam k v =>
      match columns σ !! a with
      | Some c =>
          {| columns := columns σ;
             types := alter (SAType.setattr k v) (type c) (types σ);
             tables := tables σ |}
      | None => σ
      end
  end.

(** Whether the database has the table, as [has_table] asks. *)
Definition has_table_in (σ : Store) (name : string) (schema : option string)
    : bool :=
  bool_decide ((name, schema) ∈ tables σ).

(** [DROP TABLE] in the database. *)
Definition drop_table (t : Table.t) (σ : Store) : Store :=
  {| columns := columns σ; types := types σ;
     tables := tables σ ∖ {[ (Table.name t, Table.schema t) ]} |}.

(** The imports [base] over the database of the store: [has_table] answers
    from the tables the database has at the moment. *)
Definition on_database (σ : Store) (base : Imports) : Imports :=
  {| DEFAULT_COLUMNS := @DEFAULT_COLUMNS base;
     python_type := @python_type base;
     instantiate := @instantiate base;
     compile := @compile base;
     get_full_cast_map := @get_full_cast_map base;
     has_table := λ _ name schema, Ok (has_table_in σ name schema);
     get_oid_from_table := @get_oid_from_table base;
     get_column_index_from_name := @get_column_index_from_name base;
     get_column_default := @get_column_default base |}.

(** ** A sample database

    Concrete values for the imported names, on which the statements below
    are run. They stand in for the helpers of the repository and for
    SQLAlchemy, whose code is not part of base.py; the statements themselves
    hold for any [Imports]. *)
Module Sample.

Definition DEFAULT_COLUMNS : gmap string Template.t :=
  {[ "id" := {| Template.TYPE := "Integer";
                Template.PRIMARY_KEY := Some true;
                Template.NULLABLE := Some false |} ]}.

(** Four type classes. [Integer], [Numeric] and [String] have a Python
    type, can be made without arguments and compile. [ARRAY] cannot be made
    without its item type. [NullType] has no Python type and does not
    compile. *)
Definition python_type (ty : SAType.t) : result string :=
  if decide (SAType.class_ ty = "Integer") then Ok "int"
  else if decide (SAType.class_ ty = "Numeric") then Ok "Decimal"
  else if decide (SAType.class_ ty = "ARRAY") then Ok "list"
  else if decide (SAType.class_ ty = "NullType")
       then Raise (Propagated "NotImplementedError")
  else Ok "str".

Definition instantiate (cls : string) : result SAType.t :=
  if decide (cls = "ARRAY") then Raise (Propagated "TypeError")
  else Ok {| SAType.class_ := cls; SAType.params := ∅ |}.

Definition compile (ty : SAType.t) (dialect : string) : result string :=
  if decide (SAType.class_ ty = "Integer") then Ok "INTEGER"
  else if decide (SAType.class_ ty = "Numeric") then Ok "NUMERIC"
  else if decide (SAType.class_ ty = "NullType")
       then Raise (Propagated "CompileError")
  else Ok "VARCHAR".

(** Helpers in the style of SQLAlchemy's [inspect]: no engine, no
    inspection. *)
Definition connected {A} (engine : option Engine.t) (m : result A) : result A :=
  match engine with
  | Some _ => m
  | None => Raise (Propagated "NoInspectionAvailable")
  end.

Definition get_full_cast_map (engine : option Engine.t)
    : result (gmap string (list string)) :=
  connected engine
    (Ok {[ "NUMERIC" := ["VARCHAR"; "NUMERIC"; "INTEGER"; "VARCHAR"];
           "INTEGER" := ["NUMERIC"; "VARCHAR"];
           "VARCHAR" := [] ]}).

(** One table, [public.users], with oid 16384 and the columns [id], [email]
    and [balance]. *)
Definition has_table (engine : option Engine.t) (name : string)
    (schema : option string) : result bool :=
  connected engine
    (Ok (bool_decide (name = "users" ∧ schema = Some "public"))).

Definition get_oid_from_table (name : string) (schema : option string)
    (engine : option Engine.t) : result Z :=
  connected engine
    (if bool_decide (name = "users" ∧ schema = Some "public")
     then Ok 16384 else Raise (Propagated "NoSuchTableError")).

Definition get_column_index_from_name (table_oid : Z) (column_name : string)
    (engine : option Engine.t) : result (option Z) :=
  connected engine
    (Ok (if decide (column_name = "id") then Some 1
         else if decide (column_name = "email") then Some 2
         else if decide (column_name = "balance") then Some 3
         else None)).

Definition get_column_default (table_oid : Z) (column_index : option Z)
    (engine : option Engine.t) : result (option string) :=
  connected engine
    (Ok (if decide (column_index = Some 3) then Some "0.00" else None)).

Definition imports : Imports :=
  Build_Imports DEFAULT_COLUMNS python_type instantiate compile
    get_full_cast_map has_table get_oid_from_table
    get_column_index_from_name get_column_default.

Definition users : Table.t :=
  {| Table.name := "users"; Table.schema := Some "public" |}.
Definition orders : Table.t :=
  {| Table.name := "orders"; Table.schema := Some "public" |}.
Definition pg : Engine.t :=
  {| Engine.url := "postgresql://localhost/mathesar";
     Engine.dialect := "postgresql" |}.

Definition Integer : SAType.t :=
  {| SAType.class_ := "Integer"; SAType.params := ∅ |}.
Definition Numeric_10_2 : SAType.t :=
  {| SAType.class_ := "Numeric";
     SAType.params := {[ "precision" := Some 10; "scale" := Some 2 ]} |}.
Definition String_ : SAType.t :=
  {| SAType.class_ := "String"; SAType.params := {[ "length" := None ]} |}.

(** [users.balance], as reflected from the database: attached to its table
    and pointing at [orders.id]. *)
Definition balance {Ty} (ty : Ty) : Column Ty :=
  {| name := "balance"; type := ty;
     foreign_keys := [ForeignKey "public.orders.id"];
     primary_key := false; nullable := true; server_default := Some "0.00";
     engine := None; table := Some users; original_table := Unset |}.

(** The default [id] column of [users]. *)
Definition id_ : Column SAType.t :=
  {| name := "id"; type := Integer; foreign_keys := [];
     primary_key := true; nullable := false; server_default := None;
     engine := None; table := Some users; original_table := Unset |}.

(** A copy of it, and a copy bound to an engine. *)
Definition balance_copy : Column SAType.t := from_column (balance Numeric_10_2).
Definition balance_bound : Column SAType.t := add_engine pg balance_copy.

(** A store with [users.balance] at address 1 and its type at address 1. *)
Definition store0 : Store :=
  {| columns := {[ 1%positive := balance 1%positive ]};
     types := {[ 1%positive := Numeric_10_2 ]};
     tables := {[ ("users", Some "public"); ("orders", Some "public") ]} |}.

(** A nullable column named [id], which is no default column, and columns
    of the types that raise, all bound to an engine. *)
Definition id_nullable : Column SAType.t :=
  {| name := "id"; type := Integer; foreign_keys := [];
     primary_key := true; nullable := true; server_default := None;
     engine := Some pg; table := Some users; original_table := Unset |}.
Definition ARRAY : SAType.t :=
  {| SAType.class_ := "ARRAY"; SAType.params := ∅ |}.
Definition NullType : SAType.t :=
  {| SAType.class_ := "NullType"; SAType.params := ∅ |}.
Definition tags : Column SAType.t :=
  {| name := "tags"; type := ARRAY; foreign_keys := [];
     primary_key := false; nullable := true; server_default := None;
     engine := Some pg; table := Some users; original_table := Unset |}.
Definition id_untyped : Column SAType.t :=
  {| name := "id"; type := NullType; foreign_keys := [];
     primary_key := true; nullable := false; server_default := None;
     engine := Some pg; table := Some users; original_table := Unset |}.

(** A column made by the constructor with a key built on the column object
    [orders.id], and a store that has it at address 1. *)
Definition order_ref {Ty} (ty : Ty) : Column Ty :=
  __init__ "order_id" ty [ForeignKey_on orders "id"] false true None.
Definition store1 : Store :=
  {| columns := {[ 1%positive := order_ref 1%positive ]};
     types := {[ 1%positive := Integer ]};
     tables := {[ ("users", Some "public"); ("orders", Some "public") ]} |}.

(** A column of [archive], a table the sample database does not have, bound
    to an engine. *)
Definition archive : Table.t :=
  {| Table.name := "archive"; Table.schema := Some "public" |}.
Definition total : Column SAType.t :=
  {| name := "total"; type := Numeric_10_2; foreign_keys := [];
     primary_key := false; nullable := true; server_default := None;
     engine := Some pg; table := Some archive; original_table := Unset |}.

(** The type of [balance] without its parameters. *)
Definition Numeric : SAType.t :=
  {| SAType.class_ := "Numeric"; SAType.params := ∅ |}.

(** The same imports over a database that cannot be reached: every query
    raises, engine or not. *)
Definition unreachable {A} : result A := Raise (Propagated "OperationalError").
Definition offline : Imports :=
  Build_Imports DEFAULT_COLUMNS python_type instantiate compile
    (λ _, unreachable) (λ _ _ _, unreachable) (λ _ _ _, unreachable)
    (λ _ _ _, unreachable) (λ _ _ _, unreachable).

End Sample.

(** * Statements *)

(** ** The copy constructor, on values *)

Section CopyValues.
Context {Ty : Type}.
Implicit Types c : Column Ty.

Lemma from_column_fields c0 :
  name (from_column c0) = name c0
  ∧ type (from_column c0) = type c0
  ∧ primary_key (from_column c0) = primary_key c0
  ∧ nullable (from_column c0) = nullable c0
  ∧ server_default (from_column c0) = server_default c0.
Proof. by repeat split. Qed.

Lemma from_column_foreign_keys c0 :
  foreign_keys (from_column c0)
  = (λ fk, ForeignKey (target_fullname fk)) <$> foreign_keys c0.
Proof. done. Qed.

Lemma from_column_target_fullnames c0 :
  target_fullname <$> foreign_keys (from_column c0)
  = target_fullname <$> foreign_keys c0.
Proof.
  rewrite from_column_foreign_keys, <-list_fmap_compose.
  by apply list_fmap_ext.
Qed.

Lemma from_column_holds_names c0 :
  Forall holds_name_only (foreign_keys (from_column c0)).
Proof.
  rewrite from_column_foreign_keys. apply Forall_fmap, Forall_forall.
  intros fk _. by exists (target_fullname fk).
Qed.

(** C6. [table_] follows one fixed priority: the table the column is
    attached to if there is one, else the table it was copied from if there
    is one, else nothing. *)
Theorem table__priority c :
  (∀ t, table c = Some t → table_ c = Some t)
  ∧ (∀ t, table c = None → original_table c = Held (Some t) →
          table_ c = Some t)
  ∧ (table c = None →
     original_table c = Unset ∨ original_table c = Held None →
     table_ c = None).
Proof.
  unfold table_. repeat split.
  - by intros t ->.
  - by intros t -> ->.
  - by intros -> [-> | ->].
Qed.

(** C2, as the code has it. The copy records the table the source is
    attached to, that is its [table] attribute and not its [table_]: the
    copy's table is that one if there is one and nothing otherwise, also
    when the source itself remembers a table it was copied from. The copy is
    attached to no table and has no engine. *)
Theorem from_column_table_context c0 :
  original_table (from_column c0) = Held (table c0)
  ∧ table (from_column c0) = None
  ∧ table_ (from_column c0) = table c0
  ∧ engine (from_column c0) = None
  ∧ (∀ t, table c0 = Some t → table_ (from_column c0) = table_ c0).
Proof.
  repeat split.
  - unfold table_. simpl. by destruct (table c0).
  - intros t Ht. unfold table_. simpl. by rewrite Ht.
Qed.

End CopyValues.

(** ** The properties of a column *)

Section PropertyFacts.
Context {imports : Imports}.
Implicit Types c : Column SAType.t.

(** What [is_default] does when the registry has a template. *)
Lemma is_default_template c tpl :
  DEFAULT_COLUMNS !! name c = Some tpl →
  is_default c
  = (own ← python_type (type c);
     template_type ← instantiate (Template.TYPE tpl);
     theirs ← python_type template_type;
     Ok (bool_decide (own = theirs)
         && bool_decide (primary_key c
                         = default false (Template.PRIMARY_KEY tpl))
         && bool_decide (nullable c
                         = default true (Template.NULLABLE tpl)))).
Proof. unfold is_default. by intros ->. Qed.

(** C4. [is_default] holds exactly when the registry has a template for the
    column's name, the Python type of the column's type is the one of the
    template's type, [primary_key] is the template's value (false when the
    template gives none) and [nullable] is the template's value (true when
    the template gives none). With no template for the name, [is_default] is
    false whatever the type and the flags. It is false, too, exactly when
    there is no template or both Python types are found and one of the
    three comparisons fails. *)
Theorem is_default_iff c :
  (is_default c = Ok true ↔
   ∃ tpl template_type python_class,
     DEFAULT_COLUMNS !! name c = Some tpl
     ∧ python_type (type c) = Ok python_class
     ∧ instantiate (Template.TYPE tpl) = Ok template_type
     ∧ python_type template_type = Ok python_class
     ∧ primary_key c = default false (Template.PRIMARY_KEY tpl)
     ∧ nullable c = default true (Template.NULLABLE tpl))
  ∧ (DEFAULT_COLUMNS !! name c = None → is_default c = Ok false)
  ∧ (is_default c = Ok false ↔
     DEFAULT_COLUMNS !! name c = None
     ∨ ∃ tpl template_type own theirs,
         DEFAULT_COLUMNS !! name c = Some tpl
         ∧ python_type (type c) = Ok own
         ∧ instantiate (Template.TYPE tpl) = Ok template_type
         ∧ python_type template_type = Ok theirs
         ∧ ¬ (own = theirs
              ∧ primary_key c = default false (Template.PRIMARY_KEY tpl)
              ∧ nullable c = default true (Template.NULLABLE tpl))).
Proof.
  unfold is_default.
  destruct (DEFAULT_COLUMNS !! name c) as [tpl|] eqn:Htpl; simpl.
  2:{ split; [|split; [done|]].
      - split; [done|]. by intros (? & ? & ? & ? & _).
      - split; [by left|done]. }
  destruct (python_type (type c)) as [own|x] eqn:Hown; simpl.
  2:{ split; [|split; [done|]].
      - split; [done|]. by intros (? & ? & ? & _ & ? & _).
      - split; [done|]. by intros [?|(? & ? & ? & ? & _ & ? & _)]. }
  destruct (instantiate (Template.TYPE tpl)) as [ty|x] eqn:Hty; simpl.
  2:{ split; [|split; [done|]].
      - split; [done|]. intros (? & ? & ? & ? & _ & ? & _). simplify_eq; congruence.
      - split; [done|].
        intros [?|(? & ? & ? & ? & ? & _ & ? & _)]; simplify_eq; congruence. }
  destruct (python_type ty) as [theirs|x] eqn:Hth; simpl.
  2:{ split; [|split; [done|]].
      - split; [done|].
        intros (? & ? & ? & ? & _ & ? & ? & _). simplify_eq; congruence.
      - split; [done|].
        intros [?|(? & ? & ? & ? & ? & _ & ? & ? & _)]; simplify_eq; congruence. }
  split; [|split; [done|]].
  - split.
    + intros [= Hb]. rewrite !andb_true_iff, !bool_decide_eq_true in Hb.
      destruct Hb as [[-> Hp] Hn]. by exists tpl, ty, theirs.
    + intros (tpl' & ty' & p & Ht & Ho & Hty' & Hth' & Hp & Hn).
      injection Ht as <-. injection Ho as <-.
      rewrite Hty in Hty'. injection Hty' as <-.
      rewrite Hth in Hth'. injection Hth' as ->.
      f_equal. by rewrite !andb_true_iff, !bool_decide_eq_true.
  - split.
    + intros [= Hb]. right. exists tpl, ty, own, theirs.
      do 4 (split; [done|]). intros (Ht & Hp & Hn).
      by rewrite !bool_decide_eq_true_2 in Hb.
    + intros [?|(tpl' & ty' & own' & theirs' & Ht & Ho & Hty' & Hth' & Hno)];
        [done|].
      injection Ht as <-. injection Ho as <-.
      rewrite Hty in Hty'. injection Hty' as <-.
      rewrite Hth in Hth'. injection Hth' as <-.
      f_equal. apply not_true_is_false. intros Hb. apply Hno.
      rewrite !andb_true_iff, !bool_decide_eq_true in Hb. tauto.
Qed.

(** C10. Without an engine [plain_type] raises and never returns: when the
    type class can be called without arguments, the exception is the
    [AttributeError] of reading [dialect] on [None], and otherwise it is the
    exception of that call, which comes first. So [plain_type] only returns
    for a column with an engine, and what it returns is the new type
    compiled for the engine's dialect. *)
Theorem plain_type_needs_engine c :
  (engine c = None → ∃ x, plain_type c = Raise x)
  ∧ (engine c = None → returns (instantiate (SAType.class_ (type c))) →
     plain_type c = Raise (AttributeError "NoneType" "dialect"))
  ∧ (∀ x, engine c = None →
       instantiate (SAType.class_ (type c)) = Raise x →
       plain_type c = Raise x)
  ∧ (returns (plain_type c) →
     ∃ e bare, engine c = Some e
       ∧ instantiate (SAType.class_ (type c)) = Ok bare
       ∧ plain_type c = compile bare (Engine.dialect e))
  ∧ (∀ e bare, engine c = Some e →
       instantiate (SAType.class_ (type c)) = Ok bare →
       plain_type c = compile bare (Engine.dialect e)).
Proof.
  unfold plain_type, returns.
  destruct (instantiate (SAType.class_ (type c))) as [bare|y]; simpl;
    destruct (engine c) as [e|].
  - split; [done|]. split; [done|]. split; [done|]. split.
    + intros _. by exists e, bare.
    + by intros ? ? [= <-] [= <-].
  - split; [by eauto|]. split; [done|]. split; [done|]. split.
    + by intros [? ?].
    + done.
  - split; [done|]. split; [done|]. split; [done|]. split.
    + by intros [? ?].
    + done.
  - split; [by eauto|]. split; [by intros _ [? ?]|].
    split; [by intros ? _ [= <-]|]. split.
    + by intros [? ?].
    + done.
Qed.

Lemma type_options_lookup c (m : gmap string Z) k :
  type_options c = Some m →
  m !! k = if decide (k = "precision" ∨ k = "scale")
           then SAType.getattr (type c) k else None.
Proof.
  unfold type_options. case_decide; [done|]. intros [= <-].
  rewrite lookup_omap, lookup_insert, lookup_singleton.
  destruct (decide ("precision" = k)) as [<-|?];
    [by rewrite decide_True by auto|].
  destruct (decide ("scale" = k)) as [<-|?];
    [by rewrite decide_True by auto|].
  by rewrite decide_False by (intros [?|?]; congruence).
Qed.

Lemma type_options_None c :
  type_options c = None ↔
  SAType.getattr (type c) "precision" = None
  ∧ SAType.getattr (type c) "scale" = None.
Proof.
  unfold type_options. case_decide as Hm.
  - split; [intros _|done].
    split.
    + apply (f_equal (.!! "precision")) in Hm.
      by rewrite lookup_omap, lookup_insert_eq, lookup_empty in Hm.
    + apply (f_equal (.!! "scale")) in Hm.
      by rewrite lookup_omap, lookup_insert_ne, lookup_singleton_eq,
        lookup_empty in Hm.
  - split; [done|]. intros [Hp Hs]. destruct Hm.
    apply map_eq. intros k.
    rewrite lookup_omap, lookup_insert, lookup_singleton, lookup_empty,
      Hp, Hs.
    by repeat case_decide.
Qed.

(** C9. [type_options] is [None], and never an empty dictionary, exactly
    when neither [precision] nor [scale] is there with a value other than
    [None]; otherwise it is the dictionary of exactly those of the two that
    are. For a type with precision [p] and scale [s] it is
    [{precision: p, scale: s}]. *)
Theorem type_options_spec c :
  (type_options c = None ↔
   SAType.getattr (type c) "precision" = None
   ∧ SAType.getattr (type c) "scale" = None)
  ∧ type_options c ≠ Some ∅
  ∧ (∀ m : gmap string Z, type_options c = Some m →
       ∀ k, m !! k = if decide (k = "precision" ∨ k = "scale")
                     then SAType.getattr (type c) k else None)
  ∧ (∀ p s,
       SAType.getattr (type c) "precision" = Some p →
       SAType.getattr (type c) "scale" = Some s →
       type_options c = Some {[ "precision" := p; "scale" := s ]}).
Proof.
  split; [|split; [|split]].
  - apply type_options_None.
  - unfold type_options. case_decide; congruence.
  - intros m Hm k. by apply type_options_lookup.
  - intros p s Hp Hs. destruct (type_options c) as [m|] eqn:Hm.
    + f_equal. apply map_eq. intros k.
      rewrite (type_options_lookup _ _ _ Hm), lookup_insert,
        lookup_singleton.
      destruct (decide ("precision" = k)) as [<-|?];
        [by rewrite decide_True by auto|].
      destruct (decide ("scale" = k)) as [<-|?];
        [by rewrite decide_True by auto|].
      by rewrite decide_False by (intros [?|?]; congruence).
    + apply type_options_None in Hm as [? _]. congruence.
Qed.

Lemma sorted_set_spec (xs : list string) :
  StronglySorted String.le (sorted (set_ xs))
  ∧ NoDup (sorted (set_ xs))
  ∧ (∀ x, x ∈ sorted (set_ xs) ↔ x ∈ xs).
Proof.
  unfold sorted, set_. split; [|split].
  - apply StronglySorted_merge_sort; apply _.
  - rewrite merge_sort_Permutation. apply NoDup_remove_dups.
  - intros x. by rewrite merge_sort_Permutation, elem_of_remove_dups.
Qed.

(** The order in which a set lists its elements does not show after
    sorting: a sorted list without repetition is determined by its
    elements. *)
Lemma sorted_distinct_unique (l1 l2 : list string) :
  StronglySorted String.le l1 → NoDup l1 →
  StronglySorted String.le l2 → NoDup l2 →
  (∀ x, x ∈ l1 ↔ x ∈ l2) → l1 = l2.
Proof.
  intros Hs1 Hd1 Hs2 Hd2 Hel.
  apply (StronglySorted_unique String.le); [done..|].
  by apply NoDup_Permutation.
Qed.

(** So [sorted(list(set(xs)))] is the same list whatever order the set is
    listed in. *)
Lemma sorted_any_order (xs ys : list string) :
  NoDup ys → (∀ x, x ∈ ys ↔ x ∈ xs) → sorted ys = sorted (set_ xs).
Proof.
  intros Hnd Hel. destruct (sorted_set_spec xs) as (Hs & Hd & Hx).
  apply sorted_distinct_unique; [|..|done|done|].
  - apply StronglySorted_merge_sort; apply _.
  - unfold sorted. by rewrite merge_sort_Permutation.
  - intros x. unfold sorted at 1.
    by rewrite merge_sort_Permutation, Hel, Hx.
Qed.


(** C5. [column_index] is [None] without an engine, [None] without a
    table, and [None] when the database has no table of that name in that
    schema. A value other than [None] is only returned when all three
    conditions hold. When they hold, [column_index] is the answer of
    [get_column_index_from_name] for the oid found by [get_oid_from_table]
    and the column's name. *)
Theorem column_index_spec c :
  (engine c = None → column_index c = Ok None)
  ∧ (table_ c = None → column_index c = Ok None)
  ∧ (∀ e t, engine c = Some e → table_ c = Some t →
       has_table (Some e) (Table.name t) (Table.schema t) = Ok false →
       column_index c = Ok None)
  ∧ (∀ i, column_index c = Ok (Some i) →
       ∃ e t, engine c = Some e ∧ table_ c = Some t
         ∧ has_table (Some e) (Table.name t) (Table.schema t) = Ok true)
  ∧ (∀ e t table_oid,
       engine c = Some e → table_ c = Some t →
       has_table (Some e) (Table.name t) (Table.schema t) = Ok true →
       get_oid_from_table (Table.name t) (Table.schema t) (Some e)
       = Ok table_oid →
       column_index c
       = get_column_index_from_name table_oid (name c) (Some e)).
Proof.
  unfold column_index. repeat split.
  - by intros ->.
  - intros ->. by destruct (engine c).
  - by intros e t -> -> ->.
  - intros i. destruct (engine c) as [e|]; [|done].
    destruct (table_ c) as [t|]; [|done].
    destruct (has_table _ _ _) as [[]|] eqn:Hex; [|done..].
    intros _. by exists e, t.
  - intros e t table_oid -> -> -> ->. done.
Qed.

(** C1, as the code has it. [default_value] does not look at the engine:
    for a column with a table and no engine it calls [get_oid_from_table]
    and then [get_column_default] with [None] for the engine (and [None] for
    the index), and its outcome is theirs. *)
Theorem default_value_without_engine c t :
  table_ c = Some t → engine c = None →
  default_value c
  = (table_oid ← get_oid_from_table (Table.name t) (Table.schema t) None;
     get_column_default table_oid None None).
Proof.
  intros Ht He. unfold default_value, column_index. rewrite Ht, He.
  by destruct (get_oid_from_table _ _ _).
Qed.

End PropertyFacts.

(** ** The copy constructor, on objects *)

Lemma view_Some σ a c :
  view σ a = Some c ↔
  ∃ c' ty, columns σ !! a = Some c' ∧ types σ !! type c' = Some ty
    ∧ c = with_type ty c'.
Proof.
  unfold view. split.
  - destruct (columns σ !! a) as [c'|]; [|done]. simpl.
    destruct (types σ !! type c') as [ty|] eqn:Hty; [|done]. simpl.
    intros [= <-]. by exists c', ty.
  - intros (c' & ty & -> & Hty & ->). simpl. by rewrite Hty.
Qed.

Lemma from_column_at_fresh σ a0 a σ' :
  from_column_at σ a0 = Some (a, σ') →
  columns σ !! a = None ∧ a ≠ a0
  ∧ ∃ c0, columns σ !! a0 = Some c0
      ∧ columns σ' = <[a := from_column c0]> (columns σ)
      ∧ types σ' = types σ ∧ tables σ' = tables σ.
Proof.
  unfold from_column_at, new_object.
  destruct (columns σ !! a0) as [c0|] eqn:Hc0; [|done]. intros [= <- <-].
  assert (columns σ !! fresh (dom (columns σ)) = None) as Hfresh
    by apply not_elem_of_dom, is_fresh.
  split; [done|]. split; [congruence|]. by exists c0.
Qed.

(** C7, as the code has it. The copy is a new object with the source's
    [name], [type], [primary_key], [nullable] and [server_default], and
    making it leaves the source as it was. Assigning to attributes of the
    copy never changes the source. The type descriptor is not copied, the
    two columns hold the same object: a parameter set on the copy's type is
    set on the source's type. *)
Theorem from_column_at_copy σ a0 c0 :
  view σ a0 = Some c0 →
  ∃ a σ' c,
    from_column_at σ a0 = Some (a, σ')
    ∧ view σ' a = Some c
    ∧ name c = name c0 ∧ type c = type c0
    ∧ primary_key c = primary_key c0 ∧ nullable c = nullable c0
    ∧ server_default c = server_default c0
    ∧ a ≠ a0
    ∧ view σ' a0 = Some c0
    ∧ (∀ f, view (mutate σ' a (Assign f)) a0 = Some c0)
    ∧ (∀ k v, view (mutate σ' a (SetTypeParam k v)) a0
              = Some (with_type (SAType.setattr k v (type c0)) c0)).
Proof.
  intros (c' & ty & Hc' & Hty & ->)%view_Some.
  destruct (from_column_at σ a0) as [[a σ']|] eqn:Hcopy;
    [|by unfold from_column_at in Hcopy; rewrite Hc' in Hcopy].
  destruct (from_column_at_fresh _ _ _ _ Hcopy)
    as (Hnew & Hne & c0 & Hc0 & Hcols & Htys & _).
  assert (c0 = c') as -> by congruence.
  exists a, σ', (with_type ty (from_column c')).
  split; [done|]. split.
  { apply view_Some. exists (from_column c'), ty.
    by rewrite Hcols, Htys, lookup_insert_eq. }
  do 6 (split; [done|]). split.
  { apply view_Some. exists c', ty.
    by rewrite Hcols, Htys, lookup_insert_ne. }
  split.
  - intros f. apply view_Some. exists c', ty. simpl.
    by rewrite lookup_alter_ne, Hcols, Htys, lookup_insert_ne.
  - intros k v. unfold mutate.
    rewrite Hcols, lookup_insert_eq. apply view_Some.
    exists c', (SAType.setattr k v ty). simpl.
    by rewrite lookup_insert_ne, Htys, lookup_alter_eq, Hty.
Qed.

Lemma has_table_in_drop_table σ t :
  has_table_in (drop_table t σ) (Table.name t) (Table.schema t) = false.
Proof.
  unfold has_table_in, drop_table. simpl.
  apply bool_decide_eq_false. intros [_ Hin]%elem_of_difference.
  apply Hin. by apply elem_of_singleton.
Qed.

Lemma has_table_in_drop_table_ne σ t n s :
  (n, s) ≠ (Table.name t, Table.schema t) →
  has_table_in (drop_table t σ) n s = has_table_in σ n s.
Proof.
  intros Hne. unfold has_table_in, drop_table. simpl.
  apply bool_decide_ext. rewrite elem_of_difference, elem_of_singleton.
  tauto.
Qed.

(** C8, as the code has it. Whatever keys the source holds, on names or on
    column objects, the copy is a new object whose keys each hold a name and
    no object: the names the source's keys point at, in the same order. The
    source keeps its own keys. This is so also when a table has been dropped
    from the database, which then no longer has it: every name a key of the
    source pointed at is the target of a key of the copy, while the copy of
    a column of the dropped table, bound to an engine, has no
    [column_index]. *)
Theorem from_column_at_after_drop σ a0 c0 t :
  columns σ !! a0 = Some c0 →
  has_table_in (drop_table t σ) (Table.name t) (Table.schema t) = false
  ∧ ∃ a σ' c,
      from_column_at (drop_table t σ) a0 = Some (a, σ')
      ∧ columns σ !! a = None ∧ a ≠ a0
      ∧ columns σ' !! a0 = Some c0
      ∧ columns σ' !! a = Some c
      ∧ Forall holds_name_only (foreign_keys c)
      ∧ target_fullname <$> foreign_keys c
        = target_fullname <$> foreign_keys c0
      ∧ (∀ fk, fk ∈ foreign_keys c0 →
           ForeignKey (target_fullname fk) ∈ foreign_keys c)
      ∧ (∀ (base : Imports) e (ty : SAType.t),
           table c0 = Some t →
           @column_index (on_database (drop_table t σ) base)
             (add_engine e (with_type ty c))
           = Ok None).
Proof.
  intros Hc0. split; [apply has_table_in_drop_table|].
  destruct (from_column_at (drop_table t σ) a0) as [[a σ']|] eqn:Hcopy;
    [|by unfold from_column_at in Hcopy; simpl in Hcopy;
         rewrite Hc0 in Hcopy].
  destruct (from_column_at_fresh _ _ _ _ Hcopy)
    as (Hnew & Hne & c0' & Hc0' & Hcols & _).
  simpl in Hnew, Hc0', Hcols.
  assert (c0' = c0) as -> by congruence.
  exists a, σ', (from_column c0).
  split; [done|]. split; [done|]. split; [done|].
  split; [by rewrite Hcols, lookup_insert_ne|].
  split; [by rewrite Hcols, lookup_insert_eq|].
  split; [apply from_column_holds_names|].
  split; [apply from_column_target_fullnames|]. split.
  - intros fk Hfk. rewrite from_column_foreign_keys.
    by apply (list_elem_of_fmap_2 (λ fk, ForeignKey (target_fullname fk))).
  - intros base e ty Ht. unfold column_index, table_. simpl.
    by rewrite Ht, has_table_in_drop_table.
Qed.

(** ** How the operations compose *)

Section Composition.
Context {imports : Imports}.
Implicit Types c : Column SAType.t.

(** X1. A column made by the constructor belongs to no table: once bound to
    an engine it has no effective table, and both [column_index] and
    [default_value] are [None] without any query to the database. *)
Theorem fresh_column_has_no_live_values n ty fks pk nl sd e :
  table_ (add_engine e (__init__ n ty fks pk nl sd)) = None
  ∧ column_index (add_engine e (__init__ n ty fks pk nl sd)) = Ok None
  ∧ default_value (add_engine e (__init__ n ty fks pk nl sd)) = Ok None.
Proof. done. Qed.

(** X2. Copying a copy gives the first copy again, but for the remembered
    table, which is [None]. *)
Theorem from_column_twice c :
  from_column (from_column c) = set_original_table None (from_column c).
Proof.
  unfold from_column, set_original_table, __init__. simpl. f_equal.
  rewrite <-list_fmap_compose. by apply list_fmap_ext.
Qed.

(** X3. A copy is classified as its source is: same [is_default], same
    [type_options]. *)
Theorem from_column_keeps_classification c :
  is_default (from_column c) = is_default c
  ∧ type_options (from_column c) = type_options c.
Proof. done. Qed.


(** X5. A copy of an attached column, once bound to an engine, finds the
    position of the source column in the source's table: the answer of
    [get_column_index_from_name] for that table's oid and the source's
    name. *)
Theorem copy_bound_column_index c0 e t table_oid :
  table c0 = Some t →
  has_table (Some e) (Table.name t) (Table.schema t) = Ok true →
  get_oid_from_table (Table.name t) (Table.schema t) (Some e)
  = Ok table_oid →
  column_index (add_engine e (from_column c0))
  = get_column_index_from_name table_oid (name c0) (Some e).
Proof.
  intros Ht Hex Hoid. unfold column_index, table_. simpl.
  by rewrite Ht, Hex, Hoid.
Qed.

(** X6. With an engine, a table the database has, and an index [i] found
    for the column, [default_value] is the answer of [get_column_default]
    for the table's oid and [i]. *)
Theorem default_value_bound c e t table_oid i :
  engine c = Some e → table_ c = Some t →
  has_table (Some e) (Table.name t) (Table.schema t) = Ok true →
  get_oid_from_table (Table.name t) (Table.schema t) (Some e)
  = Ok table_oid →
  get_column_index_from_name table_oid (name c) (Some e) = Ok i →
  default_value c = get_column_default table_oid i (Some e).
Proof.
  intros He Ht Hex Hoid Hi. unfold default_value, column_index.
  rewrite Ht, He, Hoid. simpl. rewrite Hex. simpl.
  by rewrite Hi.
Qed.

(** X7. [default_value] does not ask whether the table exists. When the
    database has no such table, [column_index] is [None], and
    [default_value] still asks for the table's oid and then for the default
    of the column at index [None]. *)
Theorem default_value_skips_has_table c e t :
  engine c = Some e → table_ c = Some t →
  has_table (Some e) (Table.name t) (Table.schema t) = Ok false →
  column_index c = Ok None
  ∧ default_value c
    = (table_oid ← get_oid_from_table (Table.name t) (Table.schema t)
                     (Some e);
       get_column_default table_oid None (Some e)).
Proof.
  intros He Ht Hex. unfold default_value, column_index.
  rewrite Ht, He, Hex. simpl. split; [done|].
  by destruct (get_oid_from_table _ _ _).
Qed.

(** X8. [default_value] catches nothing. An exception of
    [get_oid_from_table] is the outcome; so is, once the oid is found, an
    exception of [column_index]. *)
Theorem default_value_propagates c t x :
  table_ c = Some t →
  (get_oid_from_table (Table.name t) (Table.schema t) (engine c) = Raise x →
   default_value c = Raise x)
  ∧ (∀ table_oid,
       get_oid_from_table (Table.name t) (Table.schema t) (engine c)
       = Ok table_oid →
       column_index c = Raise x → default_value c = Raise x).
Proof.
  intros Ht. unfold default_value. rewrite Ht. split.
  - by intros ->.
  - by intros table_oid -> ->.
Qed.

(** X9. [valid_target_types] never raises without an engine. With an
    engine [e], what it raises is, in this order, what [is_default] raises;
    or, for a column that is not a default one, what the call of the type
    class raises, what compiling the new type for the dialect of [e]
    raises, or what [get_full_cast_map] raises. The read of [dialect] on
    the engine is behind the test of the engine and never fails. *)
Theorem valid_target_types_raise_origin c x :
  valid_target_types c = Raise x →
  ∃ e, engine c = Some e
    ∧ (is_default c = Raise x
       ∨ is_default c = Ok false
         ∧ (instantiate (SAType.class_ (type c)) = Raise x
            ∨ ∃ bare,
                instantiate (SAType.class_ (type c)) = Ok bare
                ∧ (compile bare (Engine.dialect e) = Raise x
                   ∨ ∃ db_type,
                       compile bare (Engine.dialect e) = Ok db_type
                       ∧ plain_type c = Ok db_type
                       ∧ get_full_cast_map (Some e) = Raise x))).
Proof.
  unfold valid_target_types, plain_type.
  destruct (engine c) as [e|]; [|done]. intros Hx. exists e.
  split; [done|].
  destruct (is_default c) as [[]|y]; simpl in Hx; [done| |left; congruence].
  right. split; [done|].
  destruct (instantiate (SAType.class_ (type c))) as [bare|y];
    simpl in Hx |- *; [|left; congruence].
  right. exists bare. split; [done|].
  destruct (compile bare (Engine.dialect e)) as [db_type|y];
    simpl in Hx |- *; [|left; congruence].
  right. exists db_type. split; [done|]. split; [done|].
  destruct (get_full_cast_map (Some e)) as [m|y]; simpl in Hx;
    [|congruence].
  by destruct (sorted _).
Qed.

(** X10. [column_index] only raises what a helper raises, and only for a
    column with an engine and a table: the exception is that of
    [has_table], or, the table being there, that of [get_oid_from_table],
    or, the oid being found, that of [get_column_index_from_name]. *)
Theorem column_index_raise_origin c x :
  column_index c = Raise x →
  ∃ e t, engine c = Some e ∧ table_ c = Some t
    ∧ (has_table (Some e) (Table.name t) (Table.schema t) = Raise x
       ∨ has_table (Some e) (Table.name t) (Table.schema t) = Ok true
         ∧ (get_oid_from_table (Table.name t) (Table.schema t) (Some e)
            = Raise x
            ∨ ∃ table_oid,
                get_oid_from_table (Table.name t) (Table.schema t) (Some e)
                = Ok table_oid
                ∧ get_column_index_from_name table_oid (name c) (Some e)
                  = Raise x)).
Proof.
  unfold column_index. destruct (engine c) as [e|]; [|done].
  destruct (table_ c) as [t|]; [|done]. intros Hx. exists e, t.
  split; [done|]. split; [done|].
  destruct (has_table _ _ _) as [[]|y]; simpl in Hx; [|done|left; congruence].
  right. split; [done|].
  destruct (get_oid_from_table _ _ _) as [table_oid|y]; simpl in Hx;
    [right; by exists table_oid | left; congruence].
Qed.

(** X11. A list returned by [valid_target_types] is never empty, ascends
    without repetition, and is made of the targets the cast map of the
    column's engine lists for its bare type; the column has an engine and is
    not a default column. *)
Theorem valid_target_types_Some c l :
  valid_target_types c = Ok (Some l) →
  l ≠ [] ∧ StronglySorted String.le l ∧ NoDup l
  ∧ ∃ e bare db_type cast_map,
      engine c = Some e ∧ is_default c = Ok false
      ∧ instantiate (SAType.class_ (type c)) = Ok bare
      ∧ compile bare (Engine.dialect e) = Ok db_type
      ∧ plain_type c = Ok db_type
      ∧ get_full_cast_map (Some e) = Ok cast_map
      ∧ (∀ x, x ∈ l ↔ x ∈ default [] (cast_map !! db_type)).
Proof.
  unfold valid_target_types, plain_type.
  destruct (engine c) as [e|]; [|done].
  destruct (is_default c) as [[]|y]; simpl; [done| |done].
  destruct (instantiate (SAType.class_ (type c))) as [bare|y]; simpl;
    [|done].
  destruct (compile bare (Engine.dialect e)) as [db_type|y] eqn:Hc; simpl;
    [|done].
  destruct (get_full_cast_map (Some e)) as [m|y] eqn:Hm; simpl; [|done].
  set (targets := default [] (m !! _)).
  destruct (sorted_set_spec targets) as (Hs & Hnd & Hel).
  destruct (sorted (set_ targets)) as [|y l'] eqn:Hl; [done|].
  intros [= <-]. split; [done|]. split; [done|]. split; [done|].
  exists e, bare, db_type, m. do 6 (split; [done|]). apply Hel.
Qed.

(** X12. [plain_type] is the type name without arguments: columns with the
    same type class and the same engine have the same [plain_type],
    whatever the parameters of their types. *)
Theorem plain_type_ignores_parameters c1 c2 :
  SAType.class_ (type c1) = SAType.class_ (type c2) →
  engine c1 = engine c2 →
  plain_type c1 = plain_type c2.
Proof. intros Hc He. unfold plain_type. by rewrite Hc, He. Qed.

(** X13. [type_options] reads [precision] and [scale] and nothing else:
    setting any other parameter of the type leaves it as it was. *)
Theorem type_options_other_parameter c k v :
  k ≠ "precision" → k ≠ "scale" →
  type_options (with_type (SAType.setattr k v (type c)) c) = type_options c.
Proof.
  intros Hp Hs. unfold type_options, SAType.getattr, SAType.setattr. simpl.
  by rewrite !lookup_insert_ne.
Qed.

(** X14. A parameter is kept whenever it is not [None], zero included: with
    a precision and no scale [type_options] is [{precision: p}], with a
    scale and no precision it is [{scale: s}]. *)
Theorem type_options_single c :
  (∀ p, SAType.getattr (type c) "precision" = Some p →
        SAType.getattr (type c) "scale" = None →
        type_options c = Some {[ "precision" := p ]})
  ∧ (∀ s, SAType.getattr (type c) "precision" = None →
          SAType.getattr (type c) "scale" = Some s →
          type_options c = Some {[ "scale" := s ]}).
Proof.
  split.
  - intros p Hp Hs. destruct (type_options c) as [m|] eqn:Hm.
    + f_equal. apply map_eq. intros k.
      rewrite (type_options_lookup _ _ _ Hm), lookup_singleton.
      destruct (decide ("precision" = k)) as [<-|?];
        [by rewrite decide_True by auto|].
      destruct (decide (k = "precision" ∨ k = "scale")) as [[?| ->]|?];
        done.
    + apply type_options_None in Hm as [? _]. congruence.
  - intros s Hp Hs. destruct (type_options c) as [m|] eqn:Hm.
    + f_equal. apply map_eq. intros k.
      rewrite (type_options_lookup _ _ _ Hm), lookup_singleton.
      destruct (decide ("scale" = k)) as [<-|?];
        [by rewrite decide_True by auto|].
      destruct (decide (k = "precision" ∨ k = "scale")) as [[->|?]|?];
        done.
    + apply type_options_None in Hm as [_ ?]. congruence.
Qed.

(** X15. [add_engine] binds the engine and touches nothing else: the
    effective table, [is_default] and [type_options] are as before, and
    binding again replaces the engine. *)
Theorem add_engine_frame c e e' :
  engine (add_engine e c) = Some e
  ∧ table_ (add_engine e c) = table_ c
  ∧ is_default (add_engine e c) = is_default c
  ∧ type_options (add_engine e c) = type_options c
  ∧ add_engine e' (add_engine e c) = add_engine e' c.
Proof. done. Qed.

End Composition.

(** ** The statements on the sample database *)

#[local] Existing Instance Sample.imports.

Lemma table__priority_witness :
  table_ (Sample.balance Sample.Numeric_10_2) = Some Sample.users
  ∧ table_ Sample.balance_copy = Some Sample.users
  ∧ table_ (from_column Sample.balance_copy) = None.
Proof.
  split; [|split].
  - by apply (proj1 (table__priority (Sample.balance Sample.Numeric_10_2))).
  - by apply (proj1 (proj2 (table__priority Sample.balance_copy))).
  - apply (proj2 (proj2 (table__priority (from_column Sample.balance_copy))));
      [done | by right].
Defined.

(** C2, as stated, fails on a source that is itself a copy: the source
    remembers the table it was copied from, the copy of it has no table. *)
Lemma from_column_of_copy_forgets_table :
  table Sample.balance_copy = None
  ∧ table_ Sample.balance_copy = Some Sample.users
  ∧ original_table (from_column Sample.balance_copy) = Held None
  ∧ original_table (from_column Sample.balance_copy)
    ≠ Held (table_ Sample.balance_copy)
  ∧ table_ (from_column Sample.balance_copy) = None.
Proof. by repeat split. Qed.

Lemma from_column_table_context_witness :
  table (Sample.balance Sample.Numeric_10_2) = Some Sample.users
  ∧ table_ Sample.balance_copy
    = table_ (Sample.balance Sample.Numeric_10_2).
Proof.
  split; [done|].
  by apply (proj2 (proj2 (proj2 (proj2
    (from_column_table_context (Sample.balance Sample.Numeric_10_2)))))
    Sample.users).
Defined.

Lemma is_default_iff_witness :
  is_default Sample.id_ = Ok true
  ∧ is_default Sample.balance_copy = Ok false
  ∧ is_default Sample.id_nullable = Ok false.
Proof.
  split; [|split].
  - apply (proj2 (proj1 (is_default_iff Sample.id_))).
    exists (Template.Build "Integer" (Some true) (Some false)),
      Sample.Integer, "int".
    by repeat split.
  - by apply (proj1 (proj2 (is_default_iff Sample.balance_copy))).
  - apply (proj2 (proj2 (proj2 (is_default_iff Sample.id_nullable)))).
    right.
    exists (Template.Build "Integer" (Some true) (Some false)),
      Sample.Integer, "int", "int".
    do 4 (split; [done|]). by intros (_ & _ & ?).
Defined.

Lemma plain_type_needs_engine_witness :
  plain_type Sample.balance_copy = Raise (AttributeError "NoneType" "dialect")
  ∧ plain_type (with_type Sample.ARRAY Sample.balance_copy)
    = Raise (Propagated "TypeError")
  ∧ plain_type Sample.balance_bound = Ok "NUMERIC".
Proof.
  split; [|split].
  - apply (proj1 (proj2 (plain_type_needs_engine Sample.balance_copy)));
      [done|]. by exists Sample.Numeric.
  - by apply (proj1 (proj2 (proj2 (plain_type_needs_engine
               (with_type Sample.ARRAY Sample.balance_copy))))).
  - assert (instantiate (SAType.class_ (type Sample.balance_bound))
            = Ok Sample.Numeric) as Hi by by vm_compute.
    by rewrite (proj2 (proj2 (proj2 (proj2
      (plain_type_needs_engine Sample.balance_bound))))
      Sample.pg Sample.Numeric eq_refl Hi).
Defined.

Lemma type_options_spec_witness :
  type_options Sample.balance_copy
  = Some {[ "precision" := 10; "scale" := 2 ]}
  ∧ type_options (with_type Sample.String_ Sample.balance_copy) = None.
Proof.
  split.
  - by apply (proj2 (proj2 (proj2 (type_options_spec Sample.balance_copy)))).
  - by apply (proj2 (proj1 (type_options_spec
                       (with_type Sample.String_ Sample.balance_copy)))).
Defined.


Lemma column_index_spec_witness :
  column_index Sample.balance_copy = Ok None
  ∧ column_index Sample.balance_bound = Ok (Some 3).
Proof.
  split.
  - by apply (proj1 (column_index_spec Sample.balance_copy)).
  - assert (has_table (Some Sample.pg) "users" (Some "public") = Ok true)
      as Hex by by vm_compute.
    assert (get_oid_from_table "users" (Some "public") (Some Sample.pg)
            = Ok 16384) as Hoid by by vm_compute.
    by rewrite (proj2 (proj2 (proj2 (proj2
      (column_index_spec Sample.balance_bound))))
      Sample.pg Sample.users 16384 eq_refl eq_refl Hex Hoid).
Defined.

(** C1 on the sample database: the copy of [users.balance] has a table and
    no engine, and reading its [default_value] raises what the helper
    raises. *)
Lemma default_value_without_engine_witness :
  table_ Sample.balance_copy = Some Sample.users
  ∧ engine Sample.balance_copy = None
  ∧ default_value Sample.balance_copy
    = Raise (Propagated "NoInspectionAvailable").
Proof.
  split; [done|]. split; [done|].
  by rewrite (default_value_without_engine Sample.balance_copy Sample.users
                eq_refl eq_refl).
Defined.

(** C7, as stated, fails for a change made inside the type descriptor:
    after [c = from_column(c0)] and [c.type.precision = 5], the source's
    precision is 5 as well. *)
Lemma from_column_shares_type_object :
  ∃ a σ' c0 c0',
    from_column_at Sample.store0 1%positive = Some (a, σ')
    ∧ view σ' 1%positive = Some c0
    ∧ view (mutate σ' a (SetTypeParam "precision" (Some 5))) 1%positive
      = Some c0'
    ∧ SAType.getattr (type c0) "precision" = Some 10
    ∧ SAType.getattr (type c0') "precision" = Some 5
    ∧ c0' ≠ c0.
Proof.
  do 4 eexists. do 3 (split; [by vm_compute|]).
  split; [by vm_compute|]. split; [by vm_compute|].
  intros Heq. by apply (f_equal (λ c, SAType.getattr (type c) "precision"))
    in Heq.
Qed.

Lemma from_column_at_copy_witness :
  view Sample.store0 1%positive
  = Some (Sample.balance Sample.Numeric_10_2)
  ∧ ∃ a σ' c,
      from_column_at Sample.store0 1%positive = Some (a, σ')
      ∧ view σ' a = Some c
      ∧ name c = "balance" ∧ type c = Sample.Numeric_10_2
      ∧ view (mutate σ' a (Assign (add_engine Sample.pg))) 1%positive
        = Some (Sample.balance Sample.Numeric_10_2).
Proof.
  assert (view Sample.store0 1%positive
          = Some (Sample.balance Sample.Numeric_10_2)) as Hview
    by by vm_compute.
  split; [done|].
  destruct (from_column_at_copy _ _ _ Hview)
    as (a & σ' & c & ? & ? & ? & ? & _ & _ & _ & _ & _ & Hf & _).
  exists a, σ', c. by repeat split.
Defined.

(** C8, as stated, fails on a column made by the constructor with a key
    built on a column object: the key holds the object, not a name. The copy
    of that column holds the name. *)
Lemma constructor_keeps_key_on_column_object :
  foreign_keys (Sample.order_ref Sample.Integer)
  = [ForeignKey_on Sample.orders "id"]
  ∧ ¬ holds_name_only (ForeignKey_on Sample.orders "id")
  ∧ foreign_keys (from_column (Sample.order_ref Sample.Integer))
    = [ForeignKey "public.orders.id"].
Proof. split; [done|]. split; [by intros [? ?]|done]. Qed.

Lemma from_column_at_after_drop_witness :
  columns Sample.store1 !! 1%positive = Some (Sample.order_ref 1%positive)
  ∧ has_table_in Sample.store1 "orders" (Some "public") = true
  ∧ has_table_in (drop_table Sample.orders Sample.store1)
      "orders" (Some "public") = false
  ∧ ∃ a σ' c,
      from_column_at (drop_table Sample.orders Sample.store1) 1%positive
      = Some (a, σ')
      ∧ a ≠ 1%positive
      ∧ columns σ' !! a = Some c
      ∧ Forall holds_name_only (foreign_keys c)
      ∧ ForeignKey "public.orders.id" ∈ foreign_keys c.
Proof.
  assert (columns Sample.store1 !! 1%positive
          = Some (Sample.order_ref 1%positive)) as Hc0 by by vm_compute.
  split; [done|]. split; [by vm_compute|].
  destruct (from_column_at_after_drop _ _ _ Sample.orders Hc0)
    as (Hgone & a & σ' & c & ? & _ & ? & _ & ? & ? & _ & Hfk & _).
  split; [done|]. exists a, σ', c. do 4 (split; [done|]).
  apply (Hfk (ForeignKey_on Sample.orders "id")). by left.
Defined.

(** ** The compositions on the sample database *)

Lemma copy_bound_column_index_witness :
  table (Sample.balance Sample.Numeric_10_2) = Some Sample.users
  ∧ column_index
      (add_engine Sample.pg (from_column (Sample.balance Sample.Numeric_10_2)))
    = Ok (Some 3).
Proof.
  split; [done|].
  assert (has_table (Some Sample.pg) "users" (Some "public") = Ok true)
    as Hex by by vm_compute.
  assert (get_oid_from_table "users" (Some "public") (Some Sample.pg)
          = Ok 16384) as Hoid by by vm_compute.
  by rewrite (copy_bound_column_index (Sample.balance Sample.Numeric_10_2)
                Sample.pg Sample.users 16384 eq_refl Hex Hoid).
Defined.

Lemma default_value_bound_witness :
  engine Sample.balance_bound = Some Sample.pg
  ∧ table_ Sample.balance_bound = Some Sample.users
  ∧ default_value Sample.balance_bound = Ok (Some "0.00").
Proof.
  split; [done|]. split; [done|].
  assert (has_table (Some Sample.pg) "users" (Some "public") = Ok true)
    as Hex by by vm_compute.
  assert (get_oid_from_table "users" (Some "public") (Some Sample.pg)
          = Ok 16384) as Hoid by by vm_compute.
  assert (get_column_index_from_name 16384 "balance" (Some Sample.pg)
          = Ok (Some 3)) as Hi by by vm_compute.
  by rewrite (default_value_bound Sample.balance_bound Sample.pg Sample.users
                16384 (Some 3) eq_refl eq_refl Hex Hoid Hi).
Defined.

Lemma default_value_skips_has_table_witness :
  engine Sample.total = Some Sample.pg
  ∧ table_ Sample.total = Some Sample.archive
  ∧ has_table (Some Sample.pg) "archive" (Some "public") = Ok false
  ∧ column_index Sample.total = Ok None
  ∧ default_value Sample.total = Raise (Propagated "NoSuchTableError").
Proof.
  split; [done|]. split; [done|].
  assert (has_table (Some Sample.pg) "archive" (Some "public") = Ok false)
    as Hex by by vm_compute.
  split; [done|].
  destruct (default_value_skips_has_table Sample.total Sample.pg
              Sample.archive eq_refl eq_refl Hex) as [Hi Hd].
  split; [done|]. by rewrite Hd.
Defined.

Lemma default_value_propagates_witness :
  table_ Sample.balance_copy = Some Sample.users
  ∧ default_value Sample.balance_copy
    = Raise (Propagated "NoInspectionAvailable").
Proof.
  split; [done|].
  by apply (proj1 (default_value_propagates Sample.balance_copy Sample.users
                     (Propagated "NoInspectionAvailable") eq_refl)).
Defined.

Lemma valid_target_types_raise_origin_witness :
  valid_target_types Sample.id_untyped
  = Raise (Propagated "NotImplementedError")
  ∧ is_default Sample.id_untyped = Raise (Propagated "NotImplementedError")
  ∧ valid_target_types Sample.tags = Raise (Propagated "TypeError")
  ∧ @valid_target_types Sample.offline Sample.balance_bound
    = Raise (Propagated "OperationalError")
  ∧ ∃ e, engine Sample.tags = Some e
      ∧ is_default Sample.tags = Ok false
      ∧ instantiate (SAType.class_ (type Sample.tags))
        = Raise (Propagated "TypeError").
Proof.
  assert (valid_target_types Sample.tags = Raise (Propagated "TypeError"))
    as Hx by by vm_compute.
  split; [by vm_compute|]. split; [by vm_compute|]. split; [done|].
  split; [by vm_compute|].
  destruct (valid_target_types_raise_origin _ _ Hx)
    as (e & He & [Hd|(Hd & [Hi|(bare & Hi & _)])]).
  - by vm_compute in Hd.
  - by exists e.
  - by vm_compute in Hi.
Defined.

Lemma column_index_raise_origin_witness :
  @column_index Sample.offline Sample.balance_bound
  = Raise (Propagated "OperationalError")
  ∧ ∃ e t, engine Sample.balance_bound = Some e
      ∧ table_ Sample.balance_bound = Some t.
Proof.
  assert (@column_index Sample.offline Sample.balance_bound
          = Raise (Propagated "OperationalError")) as Hx by by vm_compute.
  split; [done|].
  destruct (column_index_raise_origin (imports:=Sample.offline) _ _ Hx)
    as (e & t & He & Ht & _).
  by exists e, t.
Defined.

Lemma valid_target_types_Some_witness :
  valid_target_types Sample.balance_bound
  = Ok (Some ["INTEGER"; "NUMERIC"; "VARCHAR"])
  ∧ StronglySorted String.le ["INTEGER"; "NUMERIC"; "VARCHAR"]
  ∧ NoDup ["INTEGER"; "NUMERIC"; "VARCHAR"].
Proof.
  assert (valid_target_types Sample.balance_bound
          = Ok (Some ["INTEGER"; "NUMERIC"; "VARCHAR"])) as Hv
    by by vm_compute.
  split; [done|].
  destruct (valid_target_types_Some _ _ Hv) as (_ & Hs & Hnd & _).
  by split.
Defined.

Lemma plain_type_ignores_parameters_witness :
  SAType.class_ (type Sample.balance_bound)
  = SAType.class_ (type (with_type Sample.Numeric Sample.balance_bound))
  ∧ plain_type Sample.balance_bound
    = plain_type (with_type Sample.Numeric Sample.balance_bound).
Proof.
  split; [done|].
  by apply (plain_type_ignores_parameters Sample.balance_bound
              (with_type Sample.Numeric Sample.balance_bound)).
Defined.

Lemma type_options_other_parameter_witness :
  "length" ≠ "precision" ∧ "length" ≠ "scale"
  ∧ type_options
      (with_type (SAType.setattr "length" (Some 50) (type Sample.balance_copy))
         Sample.balance_copy)
    = type_options Sample.balance_copy.
Proof.
  split; [done|]. split; [done|].
  by apply (type_options_other_parameter Sample.balance_copy "length"
              (Some 50)).
Defined.

Lemma type_options_single_witness :
  type_options
    (with_type (SAType.setattr "precision" (Some 0) Sample.Numeric)
       Sample.balance_copy)
  = Some {[ "precision" := 0 ]}.
Proof. by apply (proj1 (type_options_single _)). Defined.
